(** * Capability-style permissions (src/permissions/core.ts)

    A shallow embedding of the permission core: the run-time values the
    checkers inspect, the descriptor built by [declare], [unsafeGrant],
    [deny], [isDenied], and the synchronous and asynchronous checkers with
    their three calling conventions. *)

From Stdlib Require Import Ascii.
From stdpp Require Import base option strings gmap fin_maps.

Open Scope string_scope.

(** ** Run-time values

    The checkers are written against [any]: what they do depends only on the
    truthiness of a value, on [typeof], and on the presence of an own
    property.  Numbers are kept at integer values plus [NaN]: the code only
    distinguishes the falsy numbers (zero and [NaN]) from the others.
    An object is its finite map of own properties (plain objects, whose
    prototype carries none of the property names used here). *)

#[warnings="-register-all"]
Inductive value : Type :=
  | JUndefined
  | JNull
  | JBool (b : bool)
  | JNumber (n : Z)
  | JNaN
  | JString (s : string)
  | JObject (fields : gmap string value).

(** ToBoolean. *)
Definition truthy (v : value) : bool :=
  match v with
  | JUndefined | JNull | JNaN => false
  | JBool b => b
  | JNumber n => negb (Z.eqb n 0)
  | JString s => negb (String.eqb s EmptyString)
  | JObject _ => true
  end.

Definition typeof (v : value) : string :=
  match v with
  | JUndefined => "undefined"
  | JNull | JObject _ => "object"
  | JBool _ => "boolean"
  | JNumber _ | JNaN => "number"
  | JString _ => "string"
  end.

(** [key in v], for the operand shapes on which it does not raise a
    TypeError (objects); the only use below is guarded by [typeof] and a
    null test, so the other branch is never evaluated. *)
Definition has_property (key : string) (v : value) : bool :=
  match v with
  | JObject fields => bool_decide (is_Some (fields !! key))
  | _ => false
  end.

(** [a || b] on values. *)
Definition js_or (a b : value) : value := if truthy a then a else b.

(** ** Completions of synchronous calls *)

Inductive thrown : Type :=
  | PermissionError (message : string)
  | OtherError (payload : value).

Inductive completion (A : Type) : Type :=
  | Return (v : A)
  | Throw (e : thrown).
Arguments Return {A} v.
Arguments Throw {A} e.

#[export] Instance completion_ret : MRet completion := @Return.
#[export] Instance completion_bind : MBind completion := fun A B f c =>
  match c with
  | Return v => f v
  | Throw e => Throw e
  end.

(** ** Declaration layer *)

Inductive PermissionCategory : Type :=
  | Unit
  | Complex.

Record PermissionTypeRuntime : Type := {
  _brand : string;
  _category : PermissionCategory;
}.

(** [ofType<T>()] returns a fresh empty object. *)
Definition ofType : value := JObject ∅.

(** [declare(brand, type?)]; [None] is the omitted second argument. *)
Definition declare (brand : string) (type : option value) : PermissionTypeRuntime :=
  if truthy (default JUndefined type) then
    {| _brand := brand; _category := Complex |}
  else
    {| _brand := brand; _category := Unit |}.

(** [unsafeGrant(perm, data?)]. *)
Definition unsafeGrant (perm : PermissionTypeRuntime) (data : option value) : value :=
  match _category perm with
  | Unit => JBool true
  | Complex => default JUndefined data
  end.

(** ** Denials *)

(** [denial ?? "Permission denied"], [None] being the omitted argument. *)
Definition deny (denial : option string) : value :=
  JObject {[ "denial" := JString (default "Permission denied" denial) ]}.

Definition isDenied (perm : value) : bool :=
  if String.eqb (typeof perm) "object" then
    if truthy perm then has_property "denial" perm else false
  else false.

(** ** Synchronous checker *)

Record PermissionChecker : Type := {
  test : list value → completion value;
  check : list value → completion value;
  enforce : list value → completion value;
}.

Definition dquote : string := String "034"%char EmptyString.

(** The template literal of the error message. *)
Definition denied_message (brand : string) : string :=
  "Didn't have permission " +:+ dquote +:+ brand +:+ dquote.

Definition checker (perm : PermissionTypeRuntime)
    (func : list value → completion value) : PermissionChecker :=
  {| test := fun args =>
       result ← func args;
       mret (if negb (truthy result) || isDenied result then JNull else result);
     check := fun args =>
       result ← func args;
       mret (js_or result (deny None));
     enforce := fun args =>
       result ← func args;
       if isDenied result || negb (truthy result)
       then Throw (PermissionError (denied_message (_brand perm)))
       else mret result |}.

(** ** Asynchronous checker

    A promise is described by how it settles; [Pending] is a promise that
    never does. *)

Inductive promise (A : Type) : Type :=
  | Pending
  | Fulfilled (v : A)
  | Rejected (e : thrown).
Arguments Pending {A}.
Arguments Fulfilled {A} v.
Arguments Rejected {A} e.

#[export] Instance promise_ret : MRet promise := @Fulfilled.
#[export] Instance promise_bind : MBind promise := fun A B f p =>
  match p with
  | Pending => Pending
  | Fulfilled v => f v
  | Rejected e => Rejected e
  end.

(** What the wrapped function hands back: a plain value or a promise. *)
Inductive awaitable : Type :=
  | Plain (v : value)
  | Promised (p : promise value).

(** [await func(...args)] inside an [async] body: a synchronous throw of
    the call and a rejection both reject the enclosing promise; a plain
    value is passed through. *)
Definition await (c : completion awaitable) : promise value :=
  match c with
  | Throw e => Rejected e
  | Return (Plain v) => Fulfilled v
  | Return (Promised p) => p
  end.

Module Async.
Record AsyncPermissionChecker : Type := {
  test : list value → promise value;
  check : list value → promise value;
  enforce : list value → promise value;
}.
End Async.

Definition asyncChecker (perm : PermissionTypeRuntime)
    (func : list value → completion awaitable) : Async.AsyncPermissionChecker :=
  {| Async.test := fun args =>
       result ← await (func args);
       mret (if isDenied result || negb (truthy result) then JNull else result);
     Async.check := fun args =>
       result ← await (func args);
       mret (js_or result (deny None));
     Async.enforce := fun args =>
       result ← await (func args);
       if isDenied result || negb (truthy result)
       then Rejected (PermissionError (denied_message (_brand perm)))
       else mret result |}.

(** The promise an [async] wrapper around a synchronous computation
    settles to. *)
Definition settle (c : completion value) : promise value :=
  match c with
  | Return v => Fulfilled v
  | Throw e => Rejected e
  end.

(** [s] has [sub] as a contiguous part. *)
Definition contains (s sub : string) : Prop :=
  ∃ pre post, s = pre +:+ sub +:+ post.

(** The own property [key] of a value, when it has one. *)
Definition own_property (key : string) (v : value) : option value :=
  match v with
  | JObject fields => fields !! key
  | _ => None
  end.

(** The [denial] field of a Denial. *)
Definition denial_of (v : value) : option value := own_property "denial" v.

(** The numeric enum [PermissionCategory]. *)
Definition category_index (c : PermissionCategory) : Z :=
  match c with
  | Unit => 0
  | Complex => 1
  end.

(** The own properties of the object literal a descriptor is at run time. *)
Definition runtime_fields (d : PermissionTypeRuntime) : gmap string value :=
  {[ "_brand" := JString (_brand d);
     "_category" := JNumber (category_index (_category d)) ]}.

(** ** The example application (the authorizer of the demo) *)

Module Demo.
Definition PermissionToChangeSystemSettings : PermissionTypeRuntime :=
  declare "ChangeSystemSettings" None.

Definition PermissionToViewDocument : PermissionTypeRuntime :=
  declare "PermissionToViewDocument" (Some ofType).

(** A complex kind whose payload shape is a plain number. *)
Definition PermissionToRetry : PermissionTypeRuntime :=
  declare "Retry" (Some ofType).

(** A payload of a complex kind that happens to have a [denial] field. *)
Definition flagged_payload : value :=
  JObject {[ "documentId" := JNumber 5; "denial" := JString "none" ]}.

Inductive Role : Type := admin | user.

Record UserSession : Type := { id : Z; role : Role }.

(** [doc_id] is the [id] field of [DocumentMetadata]. *)
Record DocumentMetadata : Type := { doc_id : Z; authorId : Z }.

(** A metadata store with the single document [doc]. *)
Definition single_document (doc : DocumentMetadata) (documentId : value)
    : promise DocumentMetadata :=
  match documentId with
  | JNumber n =>
      if Z.eqb n (doc_id doc) then Fulfilled doc
      else Rejected (OtherError (JString "no such document"))
  | _ => Rejected (OtherError (JString "no such document"))
  end.

Definition is_admin (r : Role) : bool :=
  match r with admin => true | user => false end.

Definition author : UserSession := {| id := 1; role := user |}.
Definition root : UserSession := {| id := 7; role := admin |}.
Definition own_doc : DocumentMetadata := {| doc_id := 5; authorId := 1 |}.
Definition other_doc : DocumentMetadata := {| doc_id := 5; authorId := 2 |}.

Section Authorizer.
Variable _user : UserSession.
(** The data-access collaborator; its promise may reject. *)
Variable loadDocumentMetadata : value → promise DocumentMetadata.

Definition canChangeSystemSettings : PermissionChecker :=
  checker PermissionToChangeSystemSettings
    (fun _ => Return (JBool (is_admin (role _user)))).

(** The [async] verify closure of [canViewDocument]; a missing argument
    reads as [undefined]. *)
Definition viewDocument (args : list value) : completion awaitable :=
  let documentId := default JUndefined (head args) in
  Return (Promised (
    document ← loadDocumentMetadata documentId;
    if Z.eqb (authorId document) (id _user)
    then mret (JObject {[ "documentId" := JNumber (doc_id document) ]})
    else mret (deny None))).

Definition canViewDocument : Async.AsyncPermissionChecker :=
  asyncChecker PermissionToViewDocument viewDocument.
End Authorizer.
(** *** The service layer and the resolver *)

(** The TypeError of a property read on [null] or [undefined], kept by its
    name only. *)
Definition TypeError : thrown :=
  OtherError (JObject {[ "name" := JString "TypeError" ]}).

(** [v.documentId]: a TypeError on [null] and [undefined], [undefined]
    where there is no such property. *)
Definition documentId_of (v : value) : completion value :=
  match v with
  | JUndefined | JNull => Throw TypeError
  | JObject fields => Return (default JUndefined (fields !! "documentId"))
  | _ => Return JUndefined
  end.

(** What an [async] function settles to when its body ends in
    [return e] with [e] a promise, or raises while computing [e]. *)
Definition adopt {A : Type} (c : completion (promise A)) : promise A :=
  match c with
  | Return p => p
  | Throw e => Rejected e
  end.

(** The fields of an [Authorizer] instance. *)
Record Authorizer : Type := {
  auth_canChangeSystemSettings : PermissionChecker;
  auth_canViewDocument : Async.AsyncPermissionChecker;
}.

(** [new Authorizer(_user)], over the data-access function it calls. *)
Definition new_Authorizer (_user : UserSession)
    (loadDocumentMetadata : value → promise DocumentMetadata) : Authorizer :=
  {| auth_canChangeSystemSettings := canChangeSystemSettings _user;
     auth_canViewDocument := canViewDocument _user loadDocumentMetadata |}.

(** The resolver's context, [{auth: Authorizer}]. *)
Record Context : Type := { auth : Authorizer }.

(** A content store with the single document [5]. *)
Definition single_content (documentId : value) : completion (promise string) :=
  match documentId with
  | JNumber 5 => Return (Fulfilled "lorem ipsum")
  | _ => Return (Rejected (OtherError (JString "no such content")))
  end.

(** The resolver's [args] asking for document [5]. *)
Definition args_5 : value := JObject {[ "documentId" := JNumber 5 ]}.

Section Service.
(** The data-access collaborator: it may raise, or hand back a promise. *)
Variable loadDocumentContentFromDb : value → completion (promise string).

Definition getDocumentContent (permission : value) : completion (promise string) :=
  documentId ← documentId_of permission;
  loadDocumentContentFromDb documentId.

Definition documentContentResolver (parent args : value) (ctx : Context)
    : promise string :=
  adopt (
    documentId ← documentId_of args;
    mret (
      hasPermission ← Async.enforce (auth_canViewDocument (auth ctx)) [documentId];
      adopt (getDocumentContent hasPermission))).
End Service.
End Demo.


(** * Properties *)

(** ** Discrimination: basic facts *)

Lemma isDenied_object fields :
  isDenied (JObject fields) = bool_decide (is_Some (fields !! "denial")).
Proof. reflexivity. Qed.

Lemma isDenied_spec v :
  isDenied v = true ↔ ∃ fields, v = JObject fields ∧ is_Some (fields !! "denial").
Proof.
  split.
  - destruct v as [| |b|n| |s|fields]; try discriminate.
    rewrite isDenied_object. intros Hin%bool_decide_eq_true. eauto.
  - intros (fields & -> & Hin). rewrite isDenied_object.
    by apply bool_decide_eq_true.
Qed.

Lemma isDenied_falsy v : truthy v = false → isDenied v = false.
Proof. by destruct v. Qed.

Lemma denial_of_deny r :
  denial_of (deny r) = Some (JString (default "Permission denied" r)).
Proof. unfold denial_of, own_property, deny. apply lookup_singleton_eq. Qed.

Lemma isDenied_deny r : isDenied (deny r) = true.
Proof.
  apply isDenied_spec. eexists. split; [reflexivity|].
  rewrite lookup_singleton_eq. eauto.
Qed.

Lemma truthy_deny r : truthy (deny r) = true.
Proof. reflexivity. Qed.

Lemma contains_denied_message brand : contains (denied_message brand) brand.
Proof.
  exists ("Didn't have permission " +:+ dquote), dquote.
  reflexivity.
Qed.

(** ** The three outcomes of a synchronous checker, by the kind of result *)

Section SyncOutcomes.
Variable perm : PermissionTypeRuntime.
Variable func : list value → completion value.
Variable args : list value.

Lemma checker_granted v :
  func args = Return v → truthy v = true → isDenied v = false →
  test (checker perm func) args = Return v
  ∧ check (checker perm func) args = Return v
  ∧ enforce (checker perm func) args = Return v.
Proof.
  intros Hcall Htruthy Hclean. cbn. rewrite Hcall. cbn.
  unfold js_or. by rewrite Htruthy, Hclean.
Qed.

Lemma checker_falsy v :
  func args = Return v → truthy v = false →
  test (checker perm func) args = Return JNull
  ∧ check (checker perm func) args = Return (deny None)
  ∧ enforce (checker perm func) args
    = Throw (PermissionError (denied_message (_brand perm))).
Proof.
  intros Hcall Hfalsy. cbn. rewrite Hcall. cbn.
  unfold js_or. rewrite Hfalsy, (isDenied_falsy _ Hfalsy). done.
Qed.

Lemma checker_denied v :
  func args = Return v → isDenied v = true →
  test (checker perm func) args = Return JNull
  ∧ enforce (checker perm func) args
    = Throw (PermissionError (denied_message (_brand perm))).
Proof.
  intros Hcall Hden. cbn. rewrite Hcall. cbn.
  rewrite Hden, orb_true_r. done.
Qed.

Lemma checker_throw e :
  func args = Throw e →
  test (checker perm func) args = Throw e
  ∧ check (checker perm func) args = Throw e
  ∧ enforce (checker perm func) args = Throw e.
Proof. intros Hcall. cbn. by rewrite Hcall. Qed.
End SyncOutcomes.

(** ** Asynchronous against synchronous *)

Lemma settle_Fulfilled c v : settle c = Fulfilled v ↔ c = Return v.
Proof. destruct c; cbn; split; congruence. Qed.

Lemma settle_Rejected c e : settle c = Rejected e ↔ c = Throw e.
Proof. destruct c; cbn; split; congruence. Qed.

Lemma asyncChecker_settle perm func afunc args :
  await (afunc args) = settle (func args) →
  Async.test (asyncChecker perm afunc) args = settle (test (checker perm func) args)
  ∧ Async.check (asyncChecker perm afunc) args = settle (check (checker perm func) args)
  ∧ Async.enforce (asyncChecker perm afunc) args
    = settle (enforce (checker perm func) args).
Proof.
  intros Hawait. cbn. rewrite Hawait.
  destruct (func args) as [result|e]; cbn; [|done].
  rewrite (orb_comm (negb (truthy result))).
  by destruct (isDenied result || negb (truthy result)).
Qed.

Lemma asyncChecker_rejected perm afunc args e :
  await (afunc args) = Rejected e →
  Async.test (asyncChecker perm afunc) args = Rejected e
  ∧ Async.check (asyncChecker perm afunc) args = Rejected e
  ∧ Async.enforce (asyncChecker perm afunc) args = Rejected e.
Proof. intros Hawait. cbn. by rewrite Hawait. Qed.

Lemma asyncChecker_pending perm afunc args :
  await (afunc args) = Pending →
  Async.test (asyncChecker perm afunc) args = Pending
  ∧ Async.check (asyncChecker perm afunc) args = Pending
  ∧ Async.enforce (asyncChecker perm afunc) args = Pending.
Proof. intros Hawait. cbn. by rewrite Hawait. Qed.

(** ** Complex kinds *)

(** C1, as amended: for a Complex kind and a verify function returning a
    value [v] that is truthy and that [isDenied] does not classify as a
    Denial, [test], [check] and [enforce] all return exactly [v]. *)
Theorem complex_payload_granted perm func args v :
  _category perm = Complex →
  func args = Return v →
  truthy v = true →
  isDenied v = false →
  test (checker perm func) args = Return v
  ∧ check (checker perm func) args = Return v
  ∧ enforce (checker perm func) args = Return v.
Proof. intros _. apply checker_granted. Qed.

Lemma complex_payload_granted_witness :
  test (checker Demo.PermissionToViewDocument
          (fun _ => Return (JObject {[ "documentId" := JNumber 5 ]}))) [JNumber 5]
    = Return (JObject {[ "documentId" := JNumber 5 ]})
  ∧ check (checker Demo.PermissionToViewDocument
          (fun _ => Return (JObject {[ "documentId" := JNumber 5 ]}))) [JNumber 5]
    = Return (JObject {[ "documentId" := JNumber 5 ]})
  ∧ enforce (checker Demo.PermissionToViewDocument
          (fun _ => Return (JObject {[ "documentId" := JNumber 5 ]}))) [JNumber 5]
    = Return (JObject {[ "documentId" := JNumber 5 ]}).
Proof.
  apply (complex_payload_granted Demo.PermissionToViewDocument
           (fun _ => Return (JObject {[ "documentId" := JNumber 5 ]}))
           [JNumber 5] (JObject {[ "documentId" := JNumber 5 ]})).
  - reflexivity.
  - reflexivity.
  - reflexivity.
  - vm_compute. reflexivity.
Defined.

(** C1, as stated, fails: the kind [Demo.PermissionToRetry] is Complex, its
    verify function returns the payload [0], which is not a Denial, and yet
    [test] answers null, [check] answers the default Denial and [enforce]
    raises; none of them returns the payload. *)
Lemma complex_payload_zero_refused :
  _category Demo.PermissionToRetry = Complex
  ∧ isDenied (JNumber 0) = false
  ∧ test (checker Demo.PermissionToRetry (fun _ => Return (JNumber 0))) []
    = Return JNull
  ∧ check (checker Demo.PermissionToRetry (fun _ => Return (JNumber 0))) []
    = Return (deny None)
  ∧ enforce (checker Demo.PermissionToRetry (fun _ => Return (JNumber 0))) []
    = Throw (PermissionError (denied_message "Retry"))
  ∧ test (checker Demo.PermissionToRetry (fun _ => Return (JNumber 0))) []
    ≠ Return (JNumber 0).
Proof.
  split; [reflexivity|]. split; [reflexivity|]. split; [reflexivity|].
  split; [reflexivity|]. split; [reflexivity|]. discriminate.
Qed.

(** ** Denials are never grants *)

(** C2: when verify returns a value produced by [deny], [test] answers null
    and [enforce] raises ([check] hands the Denial back, still recognised as
    one); [isDenied] holds of every [deny r] and fails on the literal
    [true]. *)
Theorem denial_never_granted perm func args r :
  func args = Return (deny r) →
  test (checker perm func) args = Return JNull
  ∧ enforce (checker perm func) args
    = Throw (PermissionError (denied_message (_brand perm)))
  ∧ check (checker perm func) args = Return (deny r)
  ∧ isDenied (deny r) = true
  ∧ isDenied (JBool true) = false.
Proof.
  intros Hcall.
  destruct (checker_denied perm func args _ Hcall (isDenied_deny r)) as [Ht He].
  split; [exact Ht|]. split; [exact He|]. split.
  - cbn. by rewrite Hcall.
  - split; [apply isDenied_deny | reflexivity].
Qed.

Lemma denial_never_granted_witness :
  test (checker Demo.PermissionToViewDocument
          (fun _ => Return (deny (Some "not the author")))) [JNumber 5]
    = Return JNull
  ∧ enforce (checker Demo.PermissionToViewDocument
          (fun _ => Return (deny (Some "not the author")))) [JNumber 5]
    = Throw (PermissionError (denied_message "PermissionToViewDocument"))
  ∧ check (checker Demo.PermissionToViewDocument
          (fun _ => Return (deny (Some "not the author")))) [JNumber 5]
    = Return (deny (Some "not the author"))
  ∧ isDenied (deny (Some "not the author")) = true
  ∧ isDenied (JBool true) = false.
Proof.
  apply (denial_never_granted Demo.PermissionToViewDocument
           (fun _ => Return (deny (Some "not the author"))) [JNumber 5]
           (Some "not the author")).
  reflexivity.
Defined.

(** ** Unit kinds *)

(** C3: for a Unit kind whose verify function returns [false], [test]
    answers null, [check] answers a Denial and [enforce] raises a
    PermissionError whose message contains the brand. *)
Theorem unit_false_refused perm func args :
  _category perm = Unit →
  func args = Return (JBool false) →
  test (checker perm func) args = Return JNull
  ∧ (∃ d, check (checker perm func) args = Return d ∧ isDenied d = true)
  ∧ (∃ message, enforce (checker perm func) args = Throw (PermissionError message)
       ∧ contains message (_brand perm)).
Proof.
  intros _ Hcall.
  destruct (checker_falsy perm func args _ Hcall eq_refl) as (Ht & Hc & He).
  split; [done|]. split.
  - exists (deny None). split; [done|]. apply isDenied_deny.
  - exists (denied_message (_brand perm)). split; [done|].
    apply contains_denied_message.
Qed.

Lemma unit_false_refused_witness :
  test (Demo.canChangeSystemSettings {| Demo.id := 2; Demo.role := Demo.user |}) []
    = Return JNull
  ∧ (∃ d, check (Demo.canChangeSystemSettings
                   {| Demo.id := 2; Demo.role := Demo.user |}) [] = Return d
          ∧ isDenied d = true)
  ∧ (∃ message,
        enforce (Demo.canChangeSystemSettings
                   {| Demo.id := 2; Demo.role := Demo.user |}) []
          = Throw (PermissionError message)
        ∧ contains message "ChangeSystemSettings").
Proof.
  apply (unit_false_refused Demo.PermissionToChangeSystemSettings
           (fun _ => Return (JBool (Demo.is_admin Demo.user))) []).
  - reflexivity.
  - reflexivity.
Defined.

(** C4: for a Unit kind whose verify function returns [true], [test],
    [check] and [enforce] all return the literal [true], which is truthy and
    is the instance [unsafeGrant] builds for that kind. *)
Theorem unit_true_granted perm func args :
  _category perm = Unit →
  func args = Return (JBool true) →
  test (checker perm func) args = Return (JBool true)
  ∧ check (checker perm func) args = Return (JBool true)
  ∧ enforce (checker perm func) args = Return (JBool true)
  ∧ truthy (JBool true) = true
  ∧ unsafeGrant perm None = JBool true.
Proof.
  intros Hunit Hcall.
  destruct (checker_granted perm func args _ Hcall eq_refl eq_refl)
    as (Ht & Hc & He).
  split; [exact Ht|]. split; [exact Hc|]. split; [exact He|].
  split; [reflexivity|]. unfold unsafeGrant. by rewrite Hunit.
Qed.

Lemma unit_true_granted_witness :
  test (Demo.canChangeSystemSettings {| Demo.id := 1; Demo.role := Demo.admin |}) []
    = Return (JBool true)
  ∧ check (Demo.canChangeSystemSettings {| Demo.id := 1; Demo.role := Demo.admin |}) []
    = Return (JBool true)
  ∧ enforce (Demo.canChangeSystemSettings {| Demo.id := 1; Demo.role := Demo.admin |}) []
    = Return (JBool true)
  ∧ truthy (JBool true) = true
  ∧ unsafeGrant Demo.PermissionToChangeSystemSettings None = JBool true.
Proof.
  apply (unit_true_granted Demo.PermissionToChangeSystemSettings
           (fun _ => Return (JBool (Demo.is_admin Demo.admin))) []).
  - reflexivity.
  - reflexivity.
Defined.

(** ** Reasons reported by [check] *)

(** C5: when verify returns [deny reason], [check] returns a Denial whose
    [denial] field is that very string; when verify returns [false] or any
    other falsy value, [check] returns a Denial whose [denial] field is
    "Permission denied". *)
Theorem check_denial_reason perm func args :
  (∀ reason, func args = Return (deny (Some reason)) →
     ∃ d, check (checker perm func) args = Return d
          ∧ isDenied d = true
          ∧ denial_of d = Some (JString reason))
  ∧ (∀ v, func args = Return v → truthy v = false →
     ∃ d, check (checker perm func) args = Return d
          ∧ isDenied d = true
          ∧ denial_of d = Some (JString "Permission denied")).
Proof.
  split.
  - intros reason Hcall. exists (deny (Some reason)).
    split; [|split].
    + cbn. by rewrite Hcall.
    + apply isDenied_deny.
    + apply denial_of_deny.
  - intros v Hcall Hfalsy. exists (deny None).
    destruct (checker_falsy perm func args v Hcall Hfalsy) as (_ & Hc & _).
    split; [exact Hc|]. split.
    + apply isDenied_deny.
    + apply denial_of_deny.
Qed.

Lemma check_denial_reason_witness :
  (∃ d, check (checker Demo.PermissionToViewDocument
                 (fun _ => Return (deny (Some EmptyString)))) [JNumber 5] = Return d
        ∧ isDenied d = true
        ∧ denial_of d = Some (JString EmptyString))
  ∧ (∃ d, check (checker Demo.PermissionToChangeSystemSettings
                   (fun _ => Return (JBool false))) [] = Return d
          ∧ isDenied d = true
          ∧ denial_of d = Some (JString "Permission denied")).
Proof.
  split.
  - apply (proj1 (check_denial_reason Demo.PermissionToViewDocument
                    (fun _ => Return (deny (Some EmptyString))) [JNumber 5])).
    reflexivity.
  - apply (proj2 (check_denial_reason Demo.PermissionToChangeSystemSettings
                    (fun _ => Return (JBool false)) []) (JBool false)).
    + reflexivity.
    + reflexivity.
Defined.

(** ** Unsafe grant *)

(** C6: [unsafeGrant] is a total function of the descriptor and the payload
    alone (no verify function is among its inputs and it has no failing
    outcome): on a Unit kind it yields the literal [true], on a Complex kind
    the supplied payload itself. *)
Theorem unsafeGrant_grants brand :
  (∀ data, unsafeGrant {| _brand := brand; _category := Unit |} data = JBool true)
  ∧ (∀ payload,
       unsafeGrant {| _brand := brand; _category := Complex |} (Some payload)
       = payload)
  ∧ unsafeGrant (declare brand None) None = JBool true
  ∧ (∀ payload, unsafeGrant (declare brand (Some ofType)) (Some payload) = payload).
Proof. split; [|split; [|split]]; reflexivity. Qed.

(** ** Asynchronous checker *)

(** C7: when the asynchronous verify settles with the value [r] that the
    synchronous verify returns, each asynchronous operation settles to the
    outcome of the synchronous one: the same instance, the same null, the
    same Denial, or a rejection with the same PermissionError. *)
Theorem async_matches_sync perm func afunc args r :
  func args = Return r →
  await (afunc args) = Fulfilled r →
  Async.test (asyncChecker perm afunc) args = settle (test (checker perm func) args)
  ∧ Async.check (asyncChecker perm afunc) args
    = settle (check (checker perm func) args)
  ∧ Async.enforce (asyncChecker perm afunc) args
    = settle (enforce (checker perm func) args)
  ∧ (Async.test (asyncChecker perm afunc) args = Fulfilled JNull
     ↔ test (checker perm func) args = Return JNull)
  ∧ (∀ message,
       Async.enforce (asyncChecker perm afunc) args
         = Rejected (PermissionError message)
       ↔ enforce (checker perm func) args = Throw (PermissionError message)).
Proof.
  intros Hcall Hawait.
  assert (Hsame : await (afunc args) = settle (func args))
    by (by rewrite Hcall, Hawait).
  destruct (asyncChecker_settle perm func afunc args Hsame) as (Ht & Hc & He).
  split; [exact Ht|]. split; [exact Hc|]. split; [exact He|]. split.
  - rewrite Ht. apply settle_Fulfilled.
  - intros message. rewrite He. apply settle_Rejected.
Qed.

Lemma async_matches_sync_witness :
  Async.test (asyncChecker Demo.PermissionToViewDocument
                (fun _ => Return (Promised (Fulfilled (deny None))))) [JNumber 5]
    = settle (test (checker Demo.PermissionToViewDocument
                (fun _ => Return (deny None))) [JNumber 5])
  ∧ Async.check (asyncChecker Demo.PermissionToViewDocument
                (fun _ => Return (Promised (Fulfilled (deny None))))) [JNumber 5]
    = settle (check (checker Demo.PermissionToViewDocument
                (fun _ => Return (deny None))) [JNumber 5])
  ∧ Async.enforce (asyncChecker Demo.PermissionToViewDocument
                (fun _ => Return (Promised (Fulfilled (deny None))))) [JNumber 5]
    = settle (enforce (checker Demo.PermissionToViewDocument
                (fun _ => Return (deny None))) [JNumber 5])
  ∧ (Async.test (asyncChecker Demo.PermissionToViewDocument
                (fun _ => Return (Promised (Fulfilled (deny None))))) [JNumber 5]
       = Fulfilled JNull
     ↔ test (checker Demo.PermissionToViewDocument
                (fun _ => Return (deny None))) [JNumber 5] = Return JNull)
  ∧ (∀ message,
       Async.enforce (asyncChecker Demo.PermissionToViewDocument
                (fun _ => Return (Promised (Fulfilled (deny None))))) [JNumber 5]
         = Rejected (PermissionError message)
       ↔ enforce (checker Demo.PermissionToViewDocument
                (fun _ => Return (deny None))) [JNumber 5]
         = Throw (PermissionError message)).
Proof.
  apply (async_matches_sync Demo.PermissionToViewDocument
           (fun _ => Return (deny None))
           (fun _ => Return (Promised (Fulfilled (deny None))))
           [JNumber 5] (deny None)).
  - reflexivity.
  - reflexivity.
Defined.

(** C8: when the asynchronous verify rejects with [e], [test], [check] and
    [enforce] all reject with that same [e]; none settles to null, to a
    Denial or to an instance. *)
Theorem async_rejection_propagates perm afunc args e :
  afunc args = Return (Promised (Rejected e)) →
  Async.test (asyncChecker perm afunc) args = Rejected e
  ∧ Async.check (asyncChecker perm afunc) args = Rejected e
  ∧ Async.enforce (asyncChecker perm afunc) args = Rejected e.
Proof.
  intros Hcall. apply asyncChecker_rejected. by rewrite Hcall.
Qed.

Lemma async_rejection_propagates_witness :
  Async.test (asyncChecker Demo.PermissionToViewDocument
     (fun _ => Return (Promised (Rejected (OtherError (JString "lookup failed"))))))
     [JNumber 5]
    = Rejected (OtherError (JString "lookup failed"))
  ∧ Async.check (asyncChecker Demo.PermissionToViewDocument
     (fun _ => Return (Promised (Rejected (OtherError (JString "lookup failed"))))))
     [JNumber 5]
    = Rejected (OtherError (JString "lookup failed"))
  ∧ Async.enforce (asyncChecker Demo.PermissionToViewDocument
     (fun _ => Return (Promised (Rejected (OtherError (JString "lookup failed"))))))
     [JNumber 5]
    = Rejected (OtherError (JString "lookup failed")).
Proof.
  apply (async_rejection_propagates Demo.PermissionToViewDocument
     (fun _ => Return (Promised (Rejected (OtherError (JString "lookup failed")))))
     [JNumber 5] (OtherError (JString "lookup failed"))).
  reflexivity.
Defined.

(** ** Declaration *)

(** C9: [declare] is a total function of its arguments; without a payload
    shape it yields the descriptor of brand [brand] and category Unit, with
    the shape token of [ofType] the descriptor of brand [brand] and category
    Complex; the descriptor's run-time fields are [_brand] and [_category]
    only, with no [_data] field and no field holding the shape token. *)
Theorem declare_descriptor brand :
  declare brand None = {| _brand := brand; _category := Unit |}
  ∧ declare brand (Some ofType) = {| _brand := brand; _category := Complex |}
  ∧ dom (runtime_fields (declare brand (Some ofType)))
    = ({[ "_brand"; "_category" ]} : gset string)
  ∧ runtime_fields (declare brand (Some ofType)) !! "_data" = None
  ∧ (∀ key, runtime_fields (declare brand (Some ofType)) !! key ≠ Some ofType).
Proof.
  split; [reflexivity|]. split; [reflexivity|]. split; [|split].
  - unfold runtime_fields. by rewrite dom_insert_L, dom_singleton_L.
  - reflexivity.
  - intros key. unfold runtime_fields, ofType. cbn [declare _brand _category].
    rewrite lookup_insert. case_decide; [discriminate|].
    rewrite lookup_singleton. case_decide; discriminate.
Qed.

(** ** The [denial] property decides *)

(** C10: [isDenied] holds exactly of the objects that have a [denial]
    property, whatever else they hold; so the Complex kind
    [Demo.PermissionToViewDocument] with the payload [Demo.flagged_payload],
    a truthy object that no call of [deny] produces, is refused: [test]
    answers null and [enforce] raises. *)
Theorem isDenied_denial_property :
  (∀ v, isDenied v = true
        ↔ ∃ fields, v = JObject fields ∧ is_Some (fields !! "denial"))
  ∧ (∃ perm payload,
       _category perm = Complex
       ∧ truthy payload = true
       ∧ (∀ r, payload ≠ deny r)
       ∧ ∀ args,
           test (checker perm (fun _ => Return payload)) args = Return JNull
           ∧ enforce (checker perm (fun _ => Return payload)) args
             = Throw (PermissionError (denied_message (_brand perm)))).
Proof.
  split; [exact isDenied_spec|].
  exists Demo.PermissionToViewDocument, Demo.flagged_payload.
  split; [reflexivity|]. split; [reflexivity|]. split.
  - intros r Heq. apply (f_equal (own_property "documentId")) in Heq.
    unfold Demo.flagged_payload, deny, own_property in Heq.
    rewrite lookup_insert_eq, lookup_singleton_ne in Heq; discriminate.
  - intros args.
    apply (checker_denied _ _ args Demo.flagged_payload); [reflexivity|].
    apply isDenied_spec. eexists. split; [reflexivity|].
    rewrite lookup_insert_ne, lookup_singleton_eq; [eauto|discriminate].
Qed.

(** ** The demo authorizer, end to end *)

Example view_own_document :
  Async.enforce (Demo.canViewDocument Demo.author (Demo.single_document Demo.own_doc))
    [JNumber 5]
  = Fulfilled (JObject {[ "documentId" := JNumber 5 ]}).
Proof. reflexivity. Qed.

Example view_other_document :
  Async.test (Demo.canViewDocument Demo.author (Demo.single_document Demo.other_doc))
    [JNumber 5] = Fulfilled JNull
  ∧ Async.check (Demo.canViewDocument Demo.author (Demo.single_document Demo.other_doc))
      [JNumber 5] = Fulfilled (deny None)
  ∧ Async.enforce (Demo.canViewDocument Demo.author (Demo.single_document Demo.other_doc))
      [JNumber 5]
    = Rejected (PermissionError (denied_message "PermissionToViewDocument")).
Proof. split; [|split]; reflexivity. Qed.

Example view_missing_document :
  Async.check (Demo.canViewDocument Demo.author (Demo.single_document Demo.own_doc))
    [JNumber 6]
  = Rejected (OtherError (JString "no such document")).
Proof. reflexivity. Qed.

Example change_settings :
  test (Demo.canChangeSystemSettings Demo.root) [] = Return (JBool true)
  ∧ check (Demo.canChangeSystemSettings Demo.author) [] = Return (deny None).
Proof. split; reflexivity. Qed.

(** * Further properties of the checkers *)

Lemma not_denied_singleton_documentId n :
  isDenied (JObject {[ "documentId" := JNumber n ]}) = false.
Proof.
  rewrite isDenied_object. apply bool_decide_eq_false.
  rewrite lookup_singleton_ne by discriminate. by intros [? ?].
Qed.

Lemma append_dquote_inj s1 s2 : s1 +:+ dquote = s2 +:+ dquote → s1 = s2.
Proof.
  revert s2. induction s1 as [|c s1 IH]; intros [|c' s2] Heq; cbn in Heq.
  - reflexivity.
  - injection Heq as _ Heq. by destruct s2.
  - injection Heq as _ Heq. by destruct s1.
  - injection Heq as -> Heq. f_equal. by apply IH.
Qed.

(** X1: an exception raised by the verify function of a synchronous checker
    leaves [test], [check] and [enforce] unchanged: [test] does not turn it
    into null, nor [check] into a Denial. *)
Theorem checker_verify_exception perm func args e :
  func args = Throw e →
  test (checker perm func) args = Throw e
  ∧ check (checker perm func) args = Throw e
  ∧ enforce (checker perm func) args = Throw e.
Proof. intros Hcall. cbn. rewrite Hcall. done. Qed.

Lemma checker_verify_exception_witness :
  test (checker Demo.PermissionToChangeSystemSettings
          (fun _ => Throw (OtherError (JString "session expired")))) []
    = Throw (OtherError (JString "session expired"))
  ∧ check (checker Demo.PermissionToChangeSystemSettings
          (fun _ => Throw (OtherError (JString "session expired")))) []
    = Throw (OtherError (JString "session expired"))
  ∧ enforce (checker Demo.PermissionToChangeSystemSettings
          (fun _ => Throw (OtherError (JString "session expired")))) []
    = Throw (OtherError (JString "session expired")).
Proof.
  apply (checker_verify_exception Demo.PermissionToChangeSystemSettings
           (fun _ => Throw (OtherError (JString "session expired"))) []
           (OtherError (JString "session expired"))).
  reflexivity.
Defined.

(** X2: whatever [enforce] returns is the value verify returned, and it is
    truthy and not a Denial: [enforce] never hands out a Denial, null or
    [false] as an instance. *)
Theorem enforce_result_is_instance perm func args v :
  enforce (checker perm func) args = Return v →
  func args = Return v ∧ truthy v = true ∧ isDenied v = false.
Proof.
  cbn. destruct (func args) as [result|e]; cbn; [|discriminate].
  destruct (isDenied result) eqn:Hden; cbn; [discriminate|].
  destruct (truthy result) eqn:Htruthy; cbn; [|discriminate].
  intros [= ->]. done.
Qed.

Lemma enforce_result_is_instance_witness :
  (fun _ : list value => Return (JBool true)) [] = Return (JBool true)
  ∧ truthy (JBool true) = true ∧ isDenied (JBool true) = false.
Proof.
  apply (enforce_result_is_instance Demo.PermissionToChangeSystemSettings
           (fun _ => Return (JBool true)) [] (JBool true)).
  reflexivity.
Defined.





(** X5: when verify returns normally the three conventions agree on
    failure: [test] answers null exactly when [enforce] raises the
    PermissionError of the kind, and exactly when [check] answers a
    Denial. *)
Theorem conventions_agree perm func args r :
  func args = Return r →
  (test (checker perm func) args = Return JNull
   ↔ enforce (checker perm func) args
     = Throw (PermissionError (denied_message (_brand perm))))
  ∧ (test (checker perm func) args = Return JNull
     ↔ ∃ d, check (checker perm func) args = Return d ∧ isDenied d = true).
Proof.
  intros Hcall. cbn. rewrite Hcall. cbn. unfold js_or.
  destruct (truthy r) eqn:Htruthy; cbn.
  - destruct (isDenied r) eqn:Hden; cbn.
    + split; [done|]. split; [|done]. intros _. by exists r.
    + assert (Hnonnull : r ≠ JNull) by (intros ->; discriminate).
      split; split.
      * intros [= ->]. by destruct Hnonnull.
      * discriminate.
      * intros [= ->]. by destruct Hnonnull.
      * intros (d & Hd & Hdenied). injection Hd as <-. congruence.
  - rewrite (isDenied_falsy _ Htruthy). cbn.
    split; [done|]. split; [|done]. intros _. exists (deny None).
    split; [done|]. apply isDenied_deny.
Qed.

Lemma conventions_agree_witness :
  (test (checker Demo.PermissionToViewDocument
           (fun _ => Return Demo.flagged_payload)) [JNumber 5] = Return JNull
   ↔ enforce (checker Demo.PermissionToViewDocument
           (fun _ => Return Demo.flagged_payload)) [JNumber 5]
     = Throw (PermissionError (denied_message "PermissionToViewDocument")))
  ∧ (test (checker Demo.PermissionToViewDocument
           (fun _ => Return Demo.flagged_payload)) [JNumber 5] = Return JNull
     ↔ ∃ d, check (checker Demo.PermissionToViewDocument
                  (fun _ => Return Demo.flagged_payload)) [JNumber 5] = Return d
            ∧ isDenied d = true).
Proof.
  apply (conventions_agree Demo.PermissionToViewDocument
           (fun _ => Return Demo.flagged_payload) [JNumber 5] Demo.flagged_payload).
  reflexivity.
Defined.

(** X6: when verify returns normally, [test] and [check] return normally
    too, and the only exception [enforce] can raise is the PermissionError
    carrying the brand of its kind. *)
Theorem only_enforce_raises perm func args r :
  func args = Return r →
  (∃ v, test (checker perm func) args = Return v)
  ∧ (∃ v, check (checker perm func) args = Return v)
  ∧ (∀ e, enforce (checker perm func) args = Throw e →
          e = PermissionError (denied_message (_brand perm))).
Proof.
  intros Hcall. cbn. rewrite Hcall. cbn.
  split; [eauto|]. split; [eauto|].
  intros e. destruct (isDenied r || negb (truthy r)); [|discriminate].
  by intros [= <-].
Qed.

Lemma only_enforce_raises_witness :
  (∃ v, test (checker Demo.PermissionToChangeSystemSettings
                (fun _ => Return (JBool false))) [] = Return v)
  ∧ (∃ v, check (checker Demo.PermissionToChangeSystemSettings
                (fun _ => Return (JBool false))) [] = Return v)
  ∧ (∀ e, enforce (checker Demo.PermissionToChangeSystemSettings
                (fun _ => Return (JBool false))) [] = Throw e →
          e = PermissionError (denied_message "ChangeSystemSettings")).
Proof.
  apply (only_enforce_raises Demo.PermissionToChangeSystemSettings
           (fun _ => Return (JBool false)) [] (JBool false)).
  reflexivity.
Defined.

(** X7: the message of the PermissionError determines the brand: two kinds
    raise the same message only if they have the same brand. *)
Theorem denied_message_inj brand1 brand2 :
  denied_message brand1 = denied_message brand2 → brand1 = brand2.
Proof.
  unfold denied_message. intros Heq.
  apply String.app_inj in Heq. apply String.app_inj in Heq.
  by apply append_dquote_inj.
Qed.

Lemma denied_message_inj_witness :
  _brand Demo.PermissionToRetry = "Retry".
Proof.
  apply (denied_message_inj (_brand Demo.PermissionToRetry) "Retry").
  reflexivity.
Defined.

(** X8: [declare] looks at its second argument for truthiness only, and
    [unsafeGrant] follows: on a kind declared with a truthy shape token it
    returns the payload, on a kind declared with none, or with a falsy one,
    it drops the payload and returns [true]. *)
Theorem declare_then_unsafeGrant brand shape payload :
  _brand (declare brand shape) = brand
  ∧ declare brand shape
    = declare brand (if truthy (default JUndefined shape) then Some ofType else None)
  ∧ unsafeGrant (declare brand shape) (Some payload)
    = (if truthy (default JUndefined shape) then payload else JBool true).
Proof.
  unfold declare, unsafeGrant.
  destruct (truthy (default JUndefined shape)); done.
Qed.

(** ** The asynchronous checker *)

(** X9: a verify function that hands back a plain value and one that hands
    back a promise fulfilled with that value give the same three outcomes:
    [await] treats both alike. *)
Theorem async_plain_as_promised perm f g args v :
  f args = Return (Plain v) →
  g args = Return (Promised (Fulfilled v)) →
  Async.test (asyncChecker perm f) args = Async.test (asyncChecker perm g) args
  ∧ Async.check (asyncChecker perm f) args = Async.check (asyncChecker perm g) args
  ∧ Async.enforce (asyncChecker perm f) args
    = Async.enforce (asyncChecker perm g) args.
Proof. intros Hf Hg. cbn. rewrite Hf, Hg. done. Qed.

Lemma async_plain_as_promised_witness :
  Async.test (asyncChecker Demo.PermissionToChangeSystemSettings
                (fun _ => Return (Plain (JBool true)))) []
    = Async.test (asyncChecker Demo.PermissionToChangeSystemSettings
                (fun _ => Return (Promised (Fulfilled (JBool true))))) []
  ∧ Async.check (asyncChecker Demo.PermissionToChangeSystemSettings
                (fun _ => Return (Plain (JBool true)))) []
    = Async.check (asyncChecker Demo.PermissionToChangeSystemSettings
                (fun _ => Return (Promised (Fulfilled (JBool true))))) []
  ∧ Async.enforce (asyncChecker Demo.PermissionToChangeSystemSettings
                (fun _ => Return (Plain (JBool true)))) []
    = Async.enforce (asyncChecker Demo.PermissionToChangeSystemSettings
                (fun _ => Return (Promised (Fulfilled (JBool true))))) [].
Proof.
  apply (async_plain_as_promised Demo.PermissionToChangeSystemSettings
           (fun _ => Return (Plain (JBool true)))
           (fun _ => Return (Promised (Fulfilled (JBool true)))) [] (JBool true)).
  - reflexivity.
  - reflexivity.
Defined.

(** X10: a verify function that raises before handing back anything makes
    each asynchronous operation reject with what it raised; nothing is
    raised synchronously, and nothing is turned into null or a Denial. *)
Theorem async_verify_exception perm afunc args e :
  afunc args = Throw e →
  Async.test (asyncChecker perm afunc) args = Rejected e
  ∧ Async.check (asyncChecker perm afunc) args = Rejected e
  ∧ Async.enforce (asyncChecker perm afunc) args = Rejected e.
Proof. intros Hcall. cbn. rewrite Hcall. done. Qed.

Lemma async_verify_exception_witness :
  Async.test (asyncChecker Demo.PermissionToViewDocument
                (fun _ => Throw Demo.TypeError)) [] = Rejected Demo.TypeError
  ∧ Async.check (asyncChecker Demo.PermissionToViewDocument
                (fun _ => Throw Demo.TypeError)) [] = Rejected Demo.TypeError
  ∧ Async.enforce (asyncChecker Demo.PermissionToViewDocument
                (fun _ => Throw Demo.TypeError)) [] = Rejected Demo.TypeError.
Proof.
  apply (async_verify_exception Demo.PermissionToViewDocument
           (fun _ => Throw Demo.TypeError) [] Demo.TypeError).
  reflexivity.
Defined.

(** X11: an asynchronous operation stays unsettled exactly as long as the
    awaited verify does: none of the three settles before verify, and each
    settles once verify has. *)
Theorem async_settles_with_verify perm afunc args :
  (Async.test (asyncChecker perm afunc) args = Pending
   ↔ await (afunc args) = Pending)
  ∧ (Async.check (asyncChecker perm afunc) args = Pending
     ↔ await (afunc args) = Pending)
  ∧ (Async.enforce (asyncChecker perm afunc) args = Pending
     ↔ await (afunc args) = Pending).
Proof.
  cbn. destruct (await (afunc args)) as [|result|e]; cbn.
  - done.
  - split; [done|]. split; [done|].
    by destruct (isDenied result || negb (truthy result)).
  - done.
Qed.

(** X12: whatever the asynchronous [enforce] is fulfilled with is the value
    verify settled to, and it is truthy and not a Denial. *)
Theorem async_enforce_result_is_instance perm afunc args v :
  Async.enforce (asyncChecker perm afunc) args = Fulfilled v →
  await (afunc args) = Fulfilled v ∧ truthy v = true ∧ isDenied v = false.
Proof.
  cbn. destruct (await (afunc args)) as [|result|e]; cbn; try discriminate.
  destruct (isDenied result) eqn:Hden; cbn; [discriminate|].
  destruct (truthy result) eqn:Htruthy; cbn; [|discriminate].
  intros [= ->]. done.
Qed.

Lemma async_enforce_result_is_instance_witness :
  await ((fun _ : list value =>
            Return (Promised (Fulfilled (JObject {[ "documentId" := JNumber 5 ]}))))
           [JNumber 5])
    = Fulfilled (JObject {[ "documentId" := JNumber 5 ]})
  ∧ truthy (JObject {[ "documentId" := JNumber 5 ]}) = true
  ∧ isDenied (JObject {[ "documentId" := JNumber 5 ]}) = false.
Proof.
  apply (async_enforce_result_is_instance Demo.PermissionToViewDocument
           (fun _ => Return (Promised (Fulfilled (JObject {[ "documentId" := JNumber 5 ]}))))
           [JNumber 5] (JObject {[ "documentId" := JNumber 5 ]})).
  vm_compute. reflexivity.
Defined.

Lemma asyncChecker_granted perm afunc args v :
  await (afunc args) = Fulfilled v → truthy v = true → isDenied v = false →
  Async.test (asyncChecker perm afunc) args = Fulfilled v
  ∧ Async.check (asyncChecker perm afunc) args = Fulfilled v
  ∧ Async.enforce (asyncChecker perm afunc) args = Fulfilled v.
Proof.
  intros Hawait Htruthy Hden. cbn. rewrite Hawait. cbn.
  unfold js_or. by rewrite Htruthy, Hden.
Qed.

Lemma asyncChecker_denied perm afunc args r :
  await (afunc args) = Fulfilled (deny r) →
  Async.test (asyncChecker perm afunc) args = Fulfilled JNull
  ∧ Async.check (asyncChecker perm afunc) args = Fulfilled (deny r)
  ∧ Async.enforce (asyncChecker perm afunc) args
    = Rejected (PermissionError (denied_message (_brand perm))).
Proof. intros Hawait. cbn. rewrite Hawait. done. Qed.

Lemma await_viewDocument u loadDocumentMetadata args :
  await (Demo.viewDocument u loadDocumentMetadata args)
  = (document ← loadDocumentMetadata (default JUndefined (head args));
     if Z.eqb (Demo.authorId document) (Demo.id u)
     then mret (JObject {[ "documentId" := JNumber (Demo.doc_id document) ]})
     else mret (deny None)).
Proof. reflexivity. Qed.

(** * The demo application *)

(** X13: the settings checker grants exactly the administrators, whatever
    arguments it is called with: for them [test] and [enforce] return
    [true]; for everybody else [test] answers null, [check] the default
    Denial, and [enforce] raises the error naming [ChangeSystemSettings]. *)
Theorem canChangeSystemSettings_admin_only u args :
  (test (Demo.canChangeSystemSettings u) args = Return (JBool true)
   ↔ Demo.role u = Demo.admin)
  ∧ (enforce (Demo.canChangeSystemSettings u) args = Return (JBool true)
     ↔ Demo.role u = Demo.admin)
  ∧ (Demo.role u ≠ Demo.admin →
     test (Demo.canChangeSystemSettings u) args = Return JNull
     ∧ check (Demo.canChangeSystemSettings u) args = Return (deny None)
     ∧ enforce (Demo.canChangeSystemSettings u) args
       = Throw (PermissionError (denied_message "ChangeSystemSettings"))).
Proof.
  destruct u as [uid []]; cbn.
  - split; [done|]. split; [done|]. intros Hne. by destruct Hne.
  - split; [split; discriminate|]. split; [split; discriminate|]. done.
Qed.

Section ViewDocument.
Variable u : Demo.UserSession.
Variable loadDocumentMetadata : value → promise Demo.DocumentMetadata.
Variable args : list value.

(** X14: once the metadata of the requested document is loaded, the
    document checker grants exactly its author: [enforce] is fulfilled with
    the payload holding the loaded document's id when the author is the
    session's user; otherwise [test] gives null, [check] the default Denial
    and [enforce] rejects with the error naming the kind. *)
Theorem canViewDocument_author_only doc :
  loadDocumentMetadata (default JUndefined (head args)) = Fulfilled doc →
  (Demo.authorId doc = Demo.id u →
     Async.test (Demo.canViewDocument u loadDocumentMetadata) args
       = Fulfilled (JObject {[ "documentId" := JNumber (Demo.doc_id doc) ]})
     ∧ Async.check (Demo.canViewDocument u loadDocumentMetadata) args
       = Fulfilled (JObject {[ "documentId" := JNumber (Demo.doc_id doc) ]})
     ∧ Async.enforce (Demo.canViewDocument u loadDocumentMetadata) args
       = Fulfilled (JObject {[ "documentId" := JNumber (Demo.doc_id doc) ]}))
  ∧ (Demo.authorId doc ≠ Demo.id u →
     Async.test (Demo.canViewDocument u loadDocumentMetadata) args = Fulfilled JNull
     ∧ Async.check (Demo.canViewDocument u loadDocumentMetadata) args
       = Fulfilled (deny None)
     ∧ Async.enforce (Demo.canViewDocument u loadDocumentMetadata) args
       = Rejected (PermissionError (denied_message "PermissionToViewDocument"))).
Proof.
  intros Hload. split.
  - intros Hauthor. apply asyncChecker_granted.
    + rewrite await_viewDocument, Hload. cbn. by rewrite Hauthor, Z.eqb_refl.
    + reflexivity.
    + apply not_denied_singleton_documentId.
  - intros Hother%Z.eqb_neq.
    apply (asyncChecker_denied Demo.PermissionToViewDocument _ args None).
    rewrite await_viewDocument, Hload. cbn. by rewrite Hother.
Qed.

(** X15: a failed metadata lookup is not a denial: [test], [check] and
    [enforce] of the document checker all reject with the lookup's own
    error. *)
Theorem canViewDocument_lookup_failure e :
  loadDocumentMetadata (default JUndefined (head args)) = Rejected e →
  Async.test (Demo.canViewDocument u loadDocumentMetadata) args = Rejected e
  ∧ Async.check (Demo.canViewDocument u loadDocumentMetadata) args = Rejected e
  ∧ Async.enforce (Demo.canViewDocument u loadDocumentMetadata) args = Rejected e.
Proof. intros Hload. cbn. rewrite Hload. done. Qed.
End ViewDocument.

Lemma canViewDocument_author_only_witness :
  (Demo.authorId Demo.own_doc = Demo.id Demo.author →
     Async.test (Demo.canViewDocument Demo.author (Demo.single_document Demo.own_doc))
       [JNumber 5]
       = Fulfilled (JObject {[ "documentId" := JNumber (Demo.doc_id Demo.own_doc) ]})
     ∧ Async.check (Demo.canViewDocument Demo.author (Demo.single_document Demo.own_doc))
       [JNumber 5]
       = Fulfilled (JObject {[ "documentId" := JNumber (Demo.doc_id Demo.own_doc) ]})
     ∧ Async.enforce (Demo.canViewDocument Demo.author (Demo.single_document Demo.own_doc))
       [JNumber 5]
       = Fulfilled (JObject {[ "documentId" := JNumber (Demo.doc_id Demo.own_doc) ]}))
  ∧ (Demo.authorId Demo.own_doc ≠ Demo.id Demo.author →
     Async.test (Demo.canViewDocument Demo.author (Demo.single_document Demo.own_doc))
       [JNumber 5] = Fulfilled JNull
     ∧ Async.check (Demo.canViewDocument Demo.author (Demo.single_document Demo.own_doc))
       [JNumber 5] = Fulfilled (deny None)
     ∧ Async.enforce (Demo.canViewDocument Demo.author (Demo.single_document Demo.own_doc))
       [JNumber 5]
       = Rejected (PermissionError (denied_message "PermissionToViewDocument"))).
Proof.
  apply (canViewDocument_author_only Demo.author
           (Demo.single_document Demo.own_doc) [JNumber 5] Demo.own_doc).
  reflexivity.
Defined.

Lemma canViewDocument_lookup_failure_witness :
  Async.test (Demo.canViewDocument Demo.author (Demo.single_document Demo.own_doc))
    [JNumber 6] = Rejected (OtherError (JString "no such document"))
  ∧ Async.check (Demo.canViewDocument Demo.author (Demo.single_document Demo.own_doc))
    [JNumber 6] = Rejected (OtherError (JString "no such document"))
  ∧ Async.enforce (Demo.canViewDocument Demo.author (Demo.single_document Demo.own_doc))
    [JNumber 6] = Rejected (OtherError (JString "no such document")).
Proof.
  apply (canViewDocument_lookup_failure Demo.author
           (Demo.single_document Demo.own_doc) [JNumber 6]
           (OtherError (JString "no such document"))).
  reflexivity.
Defined.

(** ** The service layer and the resolver *)

Lemma documentId_of_payload n :
  Demo.documentId_of (JObject {[ "documentId" := JNumber n ]}) = Return (JNumber n).
Proof. unfold Demo.documentId_of. by rewrite lookup_singleton_eq. Qed.

Lemma enforce_canViewDocument u loadDocumentMetadata documentId :
  Async.enforce (Demo.canViewDocument u loadDocumentMetadata) [documentId]
  = (document ← loadDocumentMetadata documentId;
     if Z.eqb (Demo.authorId document) (Demo.id u)
     then Fulfilled (JObject {[ "documentId" := JNumber (Demo.doc_id document) ]})
     else Rejected (PermissionError (denied_message "PermissionToViewDocument"))).
Proof.
  pose proof (await_viewDocument u loadDocumentMetadata [documentId]) as Hawait.
  change (default JUndefined (head [documentId])) with documentId in Hawait.
  destruct (loadDocumentMetadata documentId) as [|document|e] eqn:Hload;
    cbn [mbind promise_bind] in Hawait |- *.
  - by apply (asyncChecker_pending Demo.PermissionToViewDocument).
  - destruct (Z.eqb (Demo.authorId document) (Demo.id u)).
    + apply (asyncChecker_granted Demo.PermissionToViewDocument);
        [exact Hawait | reflexivity | apply not_denied_singleton_documentId].
    + by apply (asyncChecker_denied Demo.PermissionToViewDocument _ _ None).
  - by apply (asyncChecker_rejected Demo.PermissionToViewDocument).
Qed.

Section Resolver.
Variable u : Demo.UserSession.
Variable loadDocumentMetadata : value → promise Demo.DocumentMetadata.
Variable loadDocumentContentFromDb : value → completion (promise string).
Variable parent args : value.

(** X16: when the metadata names the session's user as the author, the
    resolver settles as the content lookup does, and the lookup is made for
    the id of the loaded document, the one held in the permission. *)
Theorem resolver_serves_author documentId doc :
  Demo.documentId_of args = Return documentId →
  loadDocumentMetadata documentId = Fulfilled doc →
  Demo.authorId doc = Demo.id u →
  Demo.documentContentResolver loadDocumentContentFromDb parent args
      {| Demo.auth := Demo.new_Authorizer u loadDocumentMetadata |}
  = Demo.adopt (loadDocumentContentFromDb (JNumber (Demo.doc_id doc))).
Proof.
  intros Hargs Hload Hauthor. unfold Demo.documentContentResolver.
  rewrite Hargs. cbn [mbind completion_bind mret completion_ret Demo.adopt].
  cbn [Demo.auth Demo.new_Authorizer Demo.auth_canViewDocument].
  rewrite enforce_canViewDocument, Hload. cbn [mbind promise_bind].
  rewrite Hauthor, Z.eqb_refl. cbn [mbind promise_bind].
  unfold Demo.getDocumentContent. by rewrite documentId_of_payload.
Qed.

(** X17: when the metadata names somebody else as the author, the resolver
    rejects with the PermissionError of the kind, whatever the content
    lookup would have answered. *)
Theorem resolver_refuses_others documentId doc :
  Demo.documentId_of args = Return documentId →
  loadDocumentMetadata documentId = Fulfilled doc →
  Demo.authorId doc ≠ Demo.id u →
  Demo.documentContentResolver loadDocumentContentFromDb parent args
      {| Demo.auth := Demo.new_Authorizer u loadDocumentMetadata |}
  = Rejected (PermissionError (denied_message "PermissionToViewDocument")).
Proof.
  intros Hargs Hload Hother%Z.eqb_neq. unfold Demo.documentContentResolver.
  rewrite Hargs. cbn [mbind completion_bind mret completion_ret Demo.adopt].
  cbn [Demo.auth Demo.new_Authorizer Demo.auth_canViewDocument].
  rewrite enforce_canViewDocument, Hload. cbn [mbind promise_bind].
  by rewrite Hother.
Qed.

(** X18: the resolver is fulfilled with a content only if the metadata of
    the requested document was loaded, its author is the session's user,
    and that content is what the lookup for the loaded document's id
    gave. *)
Theorem resolver_content_only_for_author content :
  Demo.documentContentResolver loadDocumentContentFromDb parent args
      {| Demo.auth := Demo.new_Authorizer u loadDocumentMetadata |}
    = Fulfilled content →
  ∃ documentId doc,
    Demo.documentId_of args = Return documentId
    ∧ loadDocumentMetadata documentId = Fulfilled doc
    ∧ Demo.authorId doc = Demo.id u
    ∧ Demo.adopt (loadDocumentContentFromDb (JNumber (Demo.doc_id doc)))
      = Fulfilled content.
Proof.
  unfold Demo.documentContentResolver.
  destruct (Demo.documentId_of args) as [documentId|e] eqn:Hargs;
    cbn [mbind completion_bind mret completion_ret Demo.adopt]; [|discriminate].
  cbn [Demo.auth Demo.new_Authorizer Demo.auth_canViewDocument].
  rewrite enforce_canViewDocument.
  destruct (loadDocumentMetadata documentId) as [|doc|e] eqn:Hload;
    cbn [mbind promise_bind]; try discriminate.
  destruct (Z.eqb (Demo.authorId doc) (Demo.id u)) eqn:Hauthor;
    cbn [mbind promise_bind]; [|discriminate].
  apply Z.eqb_eq in Hauthor.
  unfold Demo.getDocumentContent. rewrite documentId_of_payload.
  cbn [mbind completion_bind]. intros Hcontent.
  exists documentId, doc. done.
Qed.

(** X19: when the metadata lookup rejects, the resolver rejects with the
    same error, whatever the content lookup would have answered. *)
Theorem resolver_lookup_failure documentId e :
  Demo.documentId_of args = Return documentId →
  loadDocumentMetadata documentId = Rejected e →
  Demo.documentContentResolver loadDocumentContentFromDb parent args
      {| Demo.auth := Demo.new_Authorizer u loadDocumentMetadata |}
  = Rejected e.
Proof.
  intros Hargs Hload. unfold Demo.documentContentResolver.
  rewrite Hargs. cbn [mbind completion_bind mret completion_ret Demo.adopt].
  cbn [Demo.auth Demo.new_Authorizer Demo.auth_canViewDocument].
  by rewrite enforce_canViewDocument, Hload.
Qed.

(** X20: the service routine reads the document from the permission: given
    the instance that [unsafeGrant] builds from a payload, it looks up the
    content of the payload's [documentId]. *)
Theorem getDocumentContent_of_grant n :
  Demo.getDocumentContent loadDocumentContentFromDb
    (unsafeGrant Demo.PermissionToViewDocument
       (Some (JObject {[ "documentId" := JNumber n ]})))
  = loadDocumentContentFromDb (JNumber n).
Proof.
  unfold Demo.getDocumentContent. cbn [unsafeGrant Demo.PermissionToViewDocument].
  change (unsafeGrant _ _) with (JObject {[ "documentId" := JNumber n ]}).
  by rewrite documentId_of_payload.
Qed.
End Resolver.

Lemma resolver_serves_author_witness :
  Demo.documentContentResolver Demo.single_content JUndefined Demo.args_5
    {| Demo.auth := Demo.new_Authorizer Demo.author
                      (Demo.single_document Demo.own_doc) |}
  = Demo.adopt (Demo.single_content (JNumber (Demo.doc_id Demo.own_doc))).
Proof.
  apply (resolver_serves_author Demo.author (Demo.single_document Demo.own_doc)
           Demo.single_content JUndefined Demo.args_5 (JNumber 5) Demo.own_doc).
  - vm_compute. reflexivity.
  - reflexivity.
  - reflexivity.
Defined.

Lemma resolver_refuses_others_witness :
  Demo.documentContentResolver Demo.single_content JUndefined Demo.args_5
    {| Demo.auth := Demo.new_Authorizer Demo.author
                      (Demo.single_document Demo.other_doc) |}
  = Rejected (PermissionError (denied_message "PermissionToViewDocument")).
Proof.
  apply (resolver_refuses_others Demo.author (Demo.single_document Demo.other_doc)
           Demo.single_content JUndefined Demo.args_5 (JNumber 5) Demo.other_doc).
  - vm_compute. reflexivity.
  - reflexivity.
  - discriminate.
Defined.

Lemma resolver_content_only_for_author_witness :
  ∃ documentId doc,
    Demo.documentId_of Demo.args_5 = Return documentId
    ∧ Demo.single_document Demo.own_doc documentId = Fulfilled doc
    ∧ Demo.authorId doc = Demo.id Demo.author
    ∧ Demo.adopt (Demo.single_content (JNumber (Demo.doc_id doc)))
      = Fulfilled "lorem ipsum".
Proof.
  apply (resolver_content_only_for_author Demo.author
           (Demo.single_document Demo.own_doc) Demo.single_content
           JUndefined Demo.args_5 "lorem ipsum").
  vm_compute. reflexivity.
Defined.

Lemma resolver_lookup_failure_witness :
  Demo.documentContentResolver Demo.single_content JUndefined
    (JObject {[ "documentId" := JNumber 6 ]})
    {| Demo.auth := Demo.new_Authorizer Demo.author
                      (Demo.single_document Demo.own_doc) |}
  = Rejected (OtherError (JString "no such document")).
Proof.
  apply (resolver_lookup_failure Demo.author (Demo.single_document Demo.own_doc)
           Demo.single_content JUndefined
           (JObject {[ "documentId" := JNumber 6 ]}) (JNumber 6)
           (OtherError (JString "no such document"))).
  - vm_compute. reflexivity.
  - reflexivity.
Defined.

Lemma canChangeSystemSettings_admin_only_witness :
  (test (Demo.canChangeSystemSettings Demo.author) [] = Return (JBool true)
   ↔ Demo.role Demo.author = Demo.admin)
  ∧ (enforce (Demo.canChangeSystemSettings Demo.author) [] = Return (JBool true)
     ↔ Demo.role Demo.author = Demo.admin)
  ∧ (Demo.role Demo.author ≠ Demo.admin →
     test (Demo.canChangeSystemSettings Demo.author) [] = Return JNull
     ∧ check (Demo.canChangeSystemSettings Demo.author) [] = Return (deny None)
     ∧ enforce (Demo.canChangeSystemSettings Demo.author) []
       = Throw (PermissionError (denied_message "ChangeSystemSettings"))).
Proof. apply (canChangeSystemSettings_admin_only Demo.author []). Defined.
